(** * Weather statistics analyzer: a shallow embedding of
      [weather_analysis_simple.py] (class [SimpleWeatherAnalyzer]).

    Numbers.  The analyzer computes on Python floats.  They are modelled as
    exact rationals [Q]: the formulas, the comparisons, the order of
    evaluation and the exceptions are those of the source, the rounding error
    of binary floating point is not modelled.  The square root ([math.sqrt]
    inside [statistics.stdev], and [x ** 0.5]) has no exact rational value; it
    is a parameter [sqrt] of the development, and every theorem holds for
    every function put in its place.  [approx_sqrt] is a computable instance
    used to evaluate the analyzer on concrete tables. *)

From Stdlib Require Import List String Ascii Bool ZArith QArith Qround Qabs.
From Stdlib Require Import Lia Lqa Permutation Sorted Orders Mergesort.
Import ListNotations.

Local Open Scope string_scope.
Local Open Scope Q_scope.

(* ================================================================== *)
(** * Python runtime: exceptions, results, values *)
(* ================================================================== *)

Declare Scope py_scope.
Delimit Scope py_scope with py.

Module Py.

(** The exceptions the analyzer can raise. *)
Inductive exn : Type :=
| KeyError (key : string)       (* row[column] with a column the row lacks *)
| StatisticsError               (* statistics.mean on no data *)
| TypeError                     (* arithmetic on str data *)
| ValueError                    (* max() or min() of an empty list *)
| ZeroDivisionError.            (* x / 0 *)

Inductive result (A : Type) : Type :=
| Ok (a : A)
| Raise (e : exn).

Arguments Ok {A} a.
Arguments Raise {A} e.

Definition bind {A B : Type} (c : result A) (k : A -> result B) : result B :=
  match c with
  | Ok a => k a
  | Raise e => Raise e
  end.

Notation "x <- c ;; k" := (bind c (fun x => k))
  (at level 61, c at next level, right associativity) : py_scope.
Local Open Scope py_scope.


(** [[f(x) for x in l]] where [f] may raise: the first exception wins. *)
Fixpoint mapM {A B : Type} (f : A -> result B) (l : list A) : result (list B) :=
  match l with
  | [] => Ok []
  | x :: l' =>
      bind (f x) (fun y => bind (mapM f l') (fun ys => Ok (y :: ys)))
  end.

(** A cell of a row: a float (or int) or a str. *)
Inductive value : Type :=
| Num (q : Q)
| Str (s : string).

(** A dict with str keys, in insertion order. *)
Definition dict (V : Type) : Type := list (string * V).

Fixpoint dict_get {V : Type} (d : dict V) (k : string) : option V :=
  match d with
  | [] => None
  | (k', v) :: d' => if String.eqb k' k then Some v else dict_get d' k
  end.

Definition keys {V : Type} (d : dict V) : list string := map fst d.

(** [d[k] = f(d.get(k, default))]: an existing key keeps its place, a new
    key goes last. *)
Fixpoint dict_update {V : Type} (d : dict V) (k : string) (default : V)
         (f : V -> V) : dict V :=
  match d with
  | [] => [(k, f default)]
  | (k', v) :: d' =>
      if String.eqb k' k then (k', f v) :: d'
      else (k', v) :: dict_update d' k default f
  end.

(** Comparisons of numbers. *)
Definition ltb (a b : Q) : bool := negb (Qle_bool b a).
Definition gtb (a b : Q) : bool := ltb b a.
Definition eqb (a b : Q) : bool := Qeq_bool a b.

(** [a / b] *)
Definition div (a b : Q) : result Q :=
  if eqb b 0 then Raise ZeroDivisionError else Ok (a / b).

(** [sum(l)]: from 0, left to right. *)
Definition sum (l : list Q) : Q := fold_left Qplus l 0.

(** The scan of [max] and [min]: the first extremal element is kept. *)
Definition max_of (x : Q) (l : list Q) : Q :=
  fold_left (fun m y => if gtb y m then y else m) l x.

Definition min_of (x : Q) (l : list Q) : Q :=
  fold_left (fun m y => if ltb y m then y else m) l x.

(** Round to the nearest integer, ties to the even one. *)
Definition round_half_even (x : Q) : Z :=
  let f := Qfloor x in
  match Qcompare (x - inject_Z f) (1 # 2) with
  | Lt => f
  | Gt => (f + 1)%Z
  | Eq => if Z.even f then f else (f + 1)%Z
  end.

Definition pow10 (ndigits : nat) : positive := Pos.pow 10 (Pos.of_nat ndigits).

(** [round(x, ndigits)] for [ndigits >= 1]: the nearest multiple of
    [10 ** -ndigits], ties to even. *)
Definition round (x : Q) (ndigits : nat) : Q :=
  round_half_even (x * inject_Z (Zpos (pow10 ndigits))) # pow10 ndigits.

(** The numbers of a list of cells, [TypeError] if one is a str. *)
Fixpoint numbers (l : list value) : result (list Q) :=
  match l with
  | [] => Ok []
  | Num q :: l' => bind (numbers l') (fun qs => Ok (q :: qs))
  | Str _ :: _ => Raise TypeError
  end.

(** [max(data)] and [min(data)].  On str data Python compares the strings;
    the analyzer calls them only after [statistics.mean] has accepted the
    same data, so that case is not reached and is left a [TypeError]. *)
Definition max (data : list value) : result Q :=
  xs <- numbers data ;;
  match xs with
  | [] => Raise ValueError
  | x :: l => Ok (max_of x l)
  end.

Definition min (data : list value) : result Q :=
  xs <- numbers data ;;
  match xs with
  | [] => Raise ValueError
  | x :: l => Ok (min_of x l)
  end.

End Py.

Import Py.
Local Open Scope py_scope.

(* ================================================================== *)
(** * The [statistics] module of the Python standard library *)
(* ================================================================== *)

Module QOrder <: TotalLeBool.
Definition t := Q.
Definition leb := Qle_bool.
Theorem leb_total : forall x y, leb x y = true \/ leb y x = true.
Proof.
  intros x y. unfold leb. rewrite !Qle_bool_iff.
  destruct (Qlt_le_dec x y) as [H | H];
    [left; apply Qlt_le_weak, H | right; exact H].
Qed.
End QOrder.

Module QSort := Sort QOrder.

Module Statistics.

(** [sorted(data)] *)
Definition sorted (data : list Q) : list Q := QSort.sort data.

Definition len (data : list Q) : Q := inject_Z (Z.of_nat (List.length data)).

(** The arithmetic mean of numeric data: [sum / n]. *)
Definition mean_of (data : list Q) : Q := Py.sum data / len data.

(** [statistics.mean(data)]: [StatisticsError] on empty data, [TypeError] on
    str data. *)
Definition mean (data : list value) : result Q :=
  match data with
  | [] => Raise StatisticsError
  | _ => xs <- numbers data ;; Ok (mean_of xs)
  end.

(** [statistics.median(data)] on numeric data: the middle value of the sorted
    data, the mean of the two middle values when their number is even. *)
Definition median_of (data : list Q) : Q :=
  let s := sorted data in
  let n := List.length s in
  let i := Nat.div n 2 in
  if Nat.odd n then nth i s 0
  else (nth (i - 1) s 0 + nth i s 0) / 2.

Definition median (data : list value) : result Q :=
  match data with
  | [] => Raise StatisticsError
  | _ => xs <- numbers data ;; Ok (median_of xs)
  end.

(** The sum of the squared deviations from [c]. *)
Definition sum_sq_dev (c : Q) (data : list Q) : Q :=
  Py.sum (map (fun x => (x - c) ^ 2) data).

(** [statistics.variance(data)]: the sample variance, for two values or
    more. *)
Definition variance_of (data : list Q) : Q :=
  sum_sq_dev (mean_of data) data / (len data - 1).

Definition variance (data : list value) : result Q :=
  match data with
  | [] | [_] => Raise StatisticsError
  | _ => xs <- numbers data ;; Ok (variance_of xs)
  end.

Section Sqrt.
Variable sqrt : Q -> Q.

(** [statistics.stdev(data)]: the square root of the sample variance. *)
Definition stdev (data : list value) : result Q :=
  v <- variance data ;; Ok (sqrt v).
End Sqrt.

End Statistics.

(** A computable square root, to eight decimals, for the evaluation of the
    analyzer on concrete tables. *)
Definition approx_sqrt (x : Q) : Q :=
  match Qnum x with
  | Zpos n =>
      Z.sqrt (Zpos n * Zpos (Qden x) * 10 ^ 16)%Z # (Qden x * 10 ^ 8)%positive
  | _ => 0
  end.

(* ================================================================== *)
(** * The table and the analyzer *)
(* ================================================================== *)

(** A row of the table as [load_data] leaves it: the three measures are
    floats, [month] is the int read from the date, the rest are str. *)
Record row : Type := {
  date : string;
  city : string;
  temperature : Q;
  precipitation : Q;
  humidity : Q;
  weather_condition : string;
  month : Z
}.

(** [row[column]] *)
Definition getitem (r : row) (column : string) : result value :=
  if (column =? "date")%string then Ok (Str (date r))
  else if (column =? "city")%string then Ok (Str (city r))
  else if (column =? "temperature")%string then Ok (Num (temperature r))
  else if (column =? "precipitation")%string then Ok (Num (precipitation r))
  else if (column =? "humidity")%string then Ok (Num (humidity r))
  else if (column =? "weather_condition")%string
       then Ok (Str (weather_condition r))
  else if (column =? "month")%string then Ok (Num (inject_Z (month r)))
  else Raise (KeyError column).

(** The object: [self.data] is its only attribute. *)
Record SimpleWeatherAnalyzer : Type := { data : list row }.


(** The five answers of [_interpret_correlation]. *)
Inductive interpretation : Type :=
| StrongPositive
| ModeratePositive
| Weak
| ModerateNegative
| StrongNegative.




Definition seasons : dict (list Z) :=
  [("春", [3; 4; 5]); ("夏", [6; 7; 8]);
   ("秋", [9; 10; 11]); ("冬", [12; 1; 2])]%Z.

Definition column_values (rows : list row) (column : string)
  : result (list value) :=
  mapM (fun r => getitem r column) rows.

(** [if len(values) > 1 then f(values) else 0] *)
Definition if_many (values : list value) (f : list value -> result Q)
  : result Q :=
  if (1 <? List.length values)%nat then f values else Ok 0.

Section Analyzer.

Variable sqrt : Q -> Q.

Definition get_basic_stats (self : SimpleWeatherAnalyzer) (column : string)
  : result (dict Q) :=
  values <- column_values (data self) column ;;
  v_mean <- Statistics.mean values ;;
  v_median <- Statistics.median values ;;
  v_max <- Py.max values ;;
  v_min <- Py.min values ;;
  v_stdev <- if_many values (Statistics.stdev sqrt) ;;
  v_variance <- if_many values Statistics.variance ;;
  let stats :=
    [("平均", v_mean); ("中央値", v_median); ("最大値", v_max);
     ("最小値", v_min); ("標準偏差", v_stdev); ("分散", v_variance)] in
  Ok (map (fun '(k, v) => (k, Py.round v 2)) stats).




Definition in_season (city' : string) (months : list Z) (r : row) : bool :=
  (city r =? city')%string && existsb (Z.eqb (month r)) months.

Definition seasonal_analysis (self : SimpleWeatherAnalyzer)
           (city' column : string) : result (dict Q) :=
  mapM (fun '(season, months) =>
          season_values <-
            column_values (filter (in_season city' months) (data self))
                          column ;;
          match season_values with
          | [] => Ok (season, 0)
          | _ => m <- Statistics.mean season_values ;;
                 Ok (season, Py.round m 2)
          end)
       seasons.

Definition calculate_correlation (self : SimpleWeatherAnalyzer)
           (column1 column2 : string) : result Q :=
  values1 <- column_values (data self) column1 ;;
  values2 <- column_values (data self) column2 ;;
  mean1 <- Statistics.mean values1 ;;
  mean2 <- Statistics.mean values2 ;;
  xs <- numbers values1 ;;
  ys <- numbers values2 ;;
  let numerator :=
    Py.sum (map (fun '(x, y) => (x - mean1) * (y - mean2)) (combine xs ys)) in
  let denominator1 := Py.sum (map (fun x => (x - mean1) ^ 2) xs) in
  let denominator2 := Py.sum (map (fun y => (y - mean2) ^ 2) ys) in
  if Py.eqb denominator1 0 || Py.eqb denominator2 0 then Ok 0
  else Py.div numerator (sqrt (denominator1 * denominator2)).

Definition _interpret_correlation (corr_value : Q) : interpretation :=
  if gtb corr_value (7 # 10) then StrongPositive
  else if gtb corr_value (3 # 10) then ModeratePositive
  else if gtb corr_value (- (3 # 10)) then Weak
  else if gtb corr_value (- (7 # 10)) then ModerateNegative
  else StrongNegative.



Definition of_nat (n : nat) : Q := inject_Z (Z.of_nat n).

Definition count_weather (city_weather : list string) : dict nat :=
  fold_left (fun weather_counts weather =>
               dict_update weather_counts weather 0%nat S)
            city_weather [].




End Analyzer.

(* ================================================================== *)
(** * Vocabulary of the statements *)
(* ================================================================== *)

(** The numeric columns of the table, each with the field it reads. *)
Definition numeric_field (column : string) : option (row -> Q) :=
  if (column =? "temperature")%string then Some temperature
  else if (column =? "precipitation")%string then Some precipitation
  else if (column =? "humidity")%string then Some humidity
  else if (column =? "month")%string then Some (fun r => inject_Z (month r))
  else None.

(** The columns of the table. *)
Definition schema : list string :=
  ["date"; "city"; "temperature"; "precipitation"; "humidity";
   "weather_condition"; "month"].

(** A method call, with the object threaded through it.  No statement of
    the analyzer's query methods assigns [self.data] or writes into a row:
    the object after the call is the object before it. *)
Definition call {A : Type} (method : SimpleWeatherAnalyzer -> result A)
           (self : SimpleWeatherAnalyzer)
  : result A * SimpleWeatherAnalyzer :=
  (method self, self).

(** The distinct elements of a list, each at its first occurrence. *)
Fixpoint first_occurrences (l : list string) : list string :=
  match l with
  | [] => []
  | x :: l' => x :: remove string_dec x (first_occurrences l')
  end.



Section Exact.

Variable sqrt : Q -> Q.





End Exact.



(** The strength and the sign that an answer of [_interpret_correlation]
    names. *)
Inductive strength : Type := Strong | Moderate | Faint.




(** The strength label as the specification words it: by [|r|] alone. *)
Definition spec_strength (r : Q) : strength :=
  if gtb (Qabs r) (7 # 10) then Strong
  else if gtb (Qabs r) (3 # 10) then Moderate
  else Faint.

(** The rows of a city, in table order. *)
Definition rows_of (c : string) (rows : list row) : list row :=
  filter (fun r => (city r =? c)%string) rows.

(** The body of [calculate_correlation] on the numbers of the two columns. *)
Definition pearson (sqrt : Q -> Q) (xs ys : list Q) : result Q :=
  let mean1 := Statistics.mean_of xs in
  let mean2 := Statistics.mean_of ys in
  let numerator :=
    Py.sum (map (fun '(x, y) => (x - mean1) * (y - mean2)) (combine xs ys)) in
  let denominator1 := Py.sum (map (fun x => (x - mean1) ^ 2) xs) in
  let denominator2 := Py.sum (map (fun y => (y - mean2) ^ 2) ys) in
  if Py.eqb denominator1 0 || Py.eqb denominator2 0 then Ok 0
  else Py.div numerator (sqrt (denominator1 * denominator2)).

(** Tables used to evaluate the analyzer. *)
Definition observation (c : string) (m : Z) (t p h : Q) (w : string) : row :=
  {| date := ""; city := c; temperature := t; precipitation := p;
     humidity := h; weather_condition := w; month := m |}.

Definition empty_table : SimpleWeatherAnalyzer := {| data := [] |}.

(** Three spring days in Tokyo with temperatures 1, 2 and 2. *)
Definition thirds_table : SimpleWeatherAnalyzer :=
  {| data := [observation "Tokyo" 3 1 0 40 "sunny";
              observation "Tokyo" 4 2 5 50 "rain";
              observation "Tokyo" 5 2 9 70 "cloudy"] |}.


(** Cities in the order Tokyo, Osaka, Nagoya: not the alphabetical one. *)
Definition cities_table : SimpleWeatherAnalyzer :=
  {| data := [observation "Tokyo" 1 5 0 40 "sunny";
              observation "Osaka" 1 7 10 50 "rain";
              observation "Tokyo" 7 28 20 70 "rain";
              observation "Nagoya" 7 30 30 60 "sunny";
              observation "Osaka" 7 29 15 65 "cloudy"] |}.

(* ================================================================== *)
(** * The dashboard: levels and experience ([app.py]) *)
(* ================================================================== *)

Module App.

(** [st.session_state]: the three attributes the script keeps. *)
Record session_state : Type := {
  experience : Z;
  level : Z;
  achievements : list string
}.

(** What a call shows on the page. *)
Inductive effect : Type :=
| Balloons
| LevelUp (title : string)
| NewAchievement (achievement : string).

(** [min(10, 1 + exp // 100)] *)
Definition calculate_level (exp : Z) : Z := Z.min 10 (1 + exp / 100).

Definition titles : list (Z * string) :=
  [(1, "🌱 気象見習い"); (2, "🌤️ 天気初心者"); (3, "☁️ 雲観察者");
   (4, "🌧️ 雨量マスター"); (5, "❄️ 気温分析師"); (6, "🌪️ 統計探偵");
   (7, "🌈 データ魔法使い"); (8, "⛈️ 予報エキスパート");
   (9, "🌟 気象マエストロ"); (10, "👑 ウェザーマスター")]%Z.

(** [titles.get(level, default)] *)
Fixpoint get {V : Type} (d : list (Z * V)) (k : Z) (default : V) : V :=
  match d with
  | [] => default
  | (k', v) :: d' => if (k' =? k)%Z then v else get d' k default
  end.

Definition get_level_title (level' : Z) : string :=
  get titles level' "🌱 気象見習い".

(** [x in l] for a list of str. *)
Definition contains (l : list string) (x : string) : bool :=
  existsb (String.eqb x) l.

(** A str is true when it is not empty. *)
Definition truthy (s : string) : bool :=
  match s with EmptyString => false | _ => true end.

Definition add_experience (points : Z) (achievement : string)
           (state : session_state) : session_state * list effect :=
  let experience' := (experience state + points)%Z in
  let new_level := calculate_level experience' in
  let '(level', shown1) :=
    if (level state <? new_level)%Z
    then (new_level, [Balloons; LevelUp (get_level_title new_level)])
    else (level state, []) in
  let '(achievements', shown2) :=
    if truthy achievement && negb (contains (achievements state) achievement)
    then ((achievements state ++ [achievement])%list,
          [NewAchievement achievement])
    else (achievements state, []) in
  ({| experience := experience';
      level := level';
      achievements := achievements' |},
   (shown1 ++ shown2)%list).

(** The sidebar: [experience % 100], the part of the bar that is filled. *)
Definition exp_in_level (state : session_state) : Z :=
  (experience state mod 100)%Z.


End App.

(* ================================================================== *)
(** * The learning guide and the feedback ([education/stats_concepts.py]) *)
(* ================================================================== *)

Module Education.

(** The outcome of an indexing: the element, or [IndexError]. *)
Inductive outcome (A : Type) : Type :=
| Return (a : A)
| IndexError.

Arguments Return {A} a.
Arguments IndexError {A}.

(** [l[i]]: a negative index counts from the end. *)
Definition index {A : Type} (l : list A) (i : Z) : outcome A :=
  let n := Z.of_nat (List.length l) in
  let j := if (i <? 0)%Z then (i + n)%Z else i in
  if (j <? 0)%Z then IndexError
  else match nth_error l (Z.to_nat j) with
       | Some a => Return a
       | None => IndexError
       end.

(** The guide: [self.learning_steps], a list of steps; the methods do not
    look into a step. *)
Record LearningProgressGuide (Step : Type) : Type := {
  learning_steps : list Step
}.

Arguments learning_steps {Step} _.

(** The dict a method of the guide returns: the error of a step that does
    not exist, the message of the completion, or a step. *)
Inductive reply (Step : Type) : Type :=
| NoSuchStep (step_number : Z)
| Completed
| TheStep (s : Step).

Arguments NoSuchStep {Step} step_number.
Arguments Completed {Step}.
Arguments TheStep {Step} s.

Definition get_step {Step : Type} (self : LearningProgressGuide Step)
           (step_number : Z) : outcome (reply Step) :=
  if (step_number <? 1)%Z
     || (Z.of_nat (List.length (learning_steps self)) <? step_number)%Z
  then Return (NoSuchStep step_number)
  else match index (learning_steps self) (step_number - 1) with
       | Return s => Return (TheStep s)
       | IndexError => IndexError
       end.

Definition get_next_step {Step : Type} (self : LearningProgressGuide Step)
           (current_step : Z) : outcome (reply Step) :=
  if (Z.of_nat (List.length (learning_steps self)) <=? current_step)%Z
  then Return Completed
  else get_step self (current_step + 1).

Definition generate_encouragement (progress_percent : Q) : string :=
  if ltb progress_percent 20
  then "🌱 素晴らしいスタートだね！統計の世界へようこそ！"
  else if ltb progress_percent 40
  then "🌿 順調に成長しているよ！この調子で頑張ろう！"
  else if ltb progress_percent 60
  then "🌳 もう半分以上進んだね！統計が面白くなってきた？"
  else if ltb progress_percent 80
  then "🏆 ほぼゴールが見えてきたよ！あと少しで統計マスターだ！"
  else "🎉 おめでとう！統計の達人になったね！素晴らしい成果だよ！".

Definition hints : dict (dict string) :=
  [("mean",
    [("easy", "全部の数を足して、個数で割るだけだよ！");
     ("medium",
      "極端に大きい値や小さい値があると、平均値は影響を受けやすいよ");
     ("hard", "加重平均を使うと、重要なデータにより重みを付けられるよ")]);
   ("median",
    [("easy", "まず数を小さい順に並べて、真ん中を見つけよう！");
     ("medium", "データが偶数個の場合は、真ん中2つの平均を取るよ");
     ("hard", "外れ値に影響されにくいので、ロバストな統計量と呼ばれるよ")]);
   ("mode",
    [("easy", "一番多く出てくる値を探そう！");
     ("medium", "最頻値が複数ある場合もあるよ（多峰性）");
     ("hard",
      "カテゴリーデータの場合、最頻値が最も意味のある代表値になるよ")])].

(** [d.get(k, default)] *)
Definition get {V : Type} (d : dict V) (k : string) (default : V) : V :=
  match dict_get d k with
  | Some v => v
  | None => default
  end.

Definition get_hint_for_difficulty (concept difficulty_level : string)
  : string :=
  get (get hints concept []) difficulty_level "頑張って考えてみよう！".

End Education.



(** The band of an encouragement, from the first message to the last. *)
Definition band (message : string) : Z :=
  if (message =? "🌱 素晴らしいスタートだね！統計の世界へようこそ！")%string
  then 0
  else if (message =? "🌿 順調に成長しているよ！この調子で頑張ろう！")%string
  then 1
  else if (message
           =? "🌳 もう半分以上進んだね！統計が面白くなってきた？")%string
  then 2
  else if (message
           =? "🏆 ほぼゴールが見えてきたよ！あと少しで統計マスターだ！")%string
  then 3
  else 4.


(* ================================================================== *)
(** * Lemmas and theorems *)
(* ================================================================== *)


(** * Reading a column *)

Lemma getitem_numeric (column : string) (f : row -> Q) (r : row) :
  numeric_field column = Some f -> getitem r column = Ok (Num (f r)).
Proof.
  unfold numeric_field.
  repeat match goal with
         | |- context [String.eqb column ?s] =>
             lazymatch goal with
             | |- (if String.eqb column s then _ else _) = _ -> _ =>
                 destruct (String.eqb_spec column s) as [-> | _]
             end
         end;
    intros H; inversion H; subst; reflexivity.
Qed.

Lemma column_values_numeric (column : string) (f : row -> Q) (rows : list row) :
  numeric_field column = Some f ->
  column_values rows column = Ok (map (fun r => Num (f r)) rows).
Proof.
  intros Hf. unfold column_values.
  induction rows as [| r rows IH]; simpl; [reflexivity |].
  rewrite (getitem_numeric _ _ r Hf). simpl. rewrite IH. reflexivity.
Qed.

Lemma numbers_Num (f : row -> Q) (rows : list row) :
  numbers (map (fun r => Num (f r)) rows) = Ok (map f rows).
Proof.
  induction rows as [| r rows IH]; simpl; [reflexivity |].
  rewrite IH. reflexivity.
Qed.

Lemma mean_Num (f : row -> Q) (rows : list row) :
  rows <> [] ->
  Statistics.mean (map (fun r => Num (f r)) rows)
  = Ok (Statistics.mean_of (map f rows)).
Proof.
  intros Hne. destruct rows as [| r rows]; [congruence |].
  unfold Statistics.mean.
  change (map (fun r0 => Num (f r0)) (r :: rows))
    with (Num (f r) :: map (fun r0 => Num (f r0)) rows) at 1.
  cbv iota. rewrite numbers_Num. reflexivity.
Qed.








(** * Arithmetic of the runtime *)

Lemma ltb_lt (a b : Q) : ltb a b = true <-> a < b.
Proof.
  unfold ltb. rewrite negb_true_iff.
  split; intros H.
  - apply Qnot_le_lt. intros Hle. apply Qle_bool_iff in Hle. congruence.
  - destruct (Qle_bool b a) eqn:E; [| reflexivity].
    apply Qle_bool_iff in E. exfalso. apply (Qlt_not_le _ _ H E).
Qed.

Lemma ltb_ge (a b : Q) : ltb a b = false <-> b <= a.
Proof.
  unfold ltb. rewrite negb_false_iff. apply Qle_bool_iff.
Qed.









(** * The scans of [max] and [min] *)







(** * Dicts in insertion order *)


Lemma first_occurrences_In (l : list string) (k : string) :
  In k (first_occurrences l) <-> In k l.
Proof.
  induction l as [| x l IH]; simpl; [tauto |].
  split.
  - intros [-> | Hk]; [left; reflexivity |].
    apply in_remove in Hk. right. apply IH, Hk.
  - intros [-> | Hk]; [left; reflexivity |].
    destruct (string_dec x k) as [-> | Hne]; [left; reflexivity |].
    right. apply in_in_remove; [congruence | apply IH, Hk].
Qed.

Lemma NoDup_remove_string (x : string) (l : list string) :
  NoDup l -> NoDup (remove string_dec x l).
Proof.
  induction 1 as [| y l Hy Hl IH]; simpl; [constructor |].
  destruct (string_dec x y); [exact IH |].
  constructor; [| exact IH].
  intros Hin. apply in_remove in Hin. tauto.
Qed.

Lemma first_occurrences_NoDup (l : list string) : NoDup (first_occurrences l).
Proof.
  induction l as [| x l IH]; simpl; constructor.
  - apply remove_In.
  - apply NoDup_remove_string, IH.
Qed.

Lemma first_occurrences_snoc (l : list string) (x : string) :
  first_occurrences (l ++ [x])
  = if in_dec string_dec x l then first_occurrences l
    else (first_occurrences l ++ [x])%list.
Proof.
  induction l as [| a l IH]; [reflexivity |].
  cbn [app first_occurrences]. rewrite IH.
  destruct (in_dec string_dec x l) as [Hin | Hnin].
  - destruct (in_dec string_dec x (a :: l)) as [_ | Hn]; [reflexivity |].
    exfalso. apply Hn. right. exact Hin.
  - rewrite remove_app.
    destruct (in_dec string_dec x (a :: l)) as [[-> | Hin] | Hn].
    + simpl. destruct (string_dec x x); [| congruence].
      rewrite app_nil_r. reflexivity.
    + contradiction.
    + simpl. destruct (string_dec a x) as [-> | _].
      * exfalso. apply Hn. left. reflexivity.
      * reflexivity.
Qed.

Section DictUpdate.

Context {V : Type}.
Variable default : V.
Variable h : V -> V.
Variable g : string -> V.

Lemma dict_update_absent (ks : list string) (x : string) :
  ~ In x ks ->
  dict_update (map (fun k => (k, g k)) ks) x default h
  = (map (fun k => (k, g k)) ks ++ [(x, h default)])%list.
Proof.
  induction ks as [| k ks IH]; intros Hn; simpl; [reflexivity |].
  destruct (String.eqb_spec k x) as [-> | _].
  - exfalso. apply Hn. left. reflexivity.
  - rewrite IH; [reflexivity |]. intros Hin. apply Hn. right. exact Hin.
Qed.

Lemma dict_update_present (ks : list string) (x : string) :
  NoDup ks -> In x ks ->
  dict_update (map (fun k => (k, g k)) ks) x default h
  = map (fun k => (k, if string_dec k x then h (g k) else g k)) ks.
Proof.
  induction 1 as [| k ks Hk Hnd IH]; intros Hin; [destruct Hin |].
  simpl. destruct (String.eqb_spec k x) as [-> | Hne].
  - destruct (string_dec x x); [| congruence].
    f_equal. apply map_ext_in. intros y Hy.
    destruct (string_dec y x) as [-> | _]; [contradiction | reflexivity].
  - destruct (string_dec k x); [congruence |].
    f_equal. apply IH. destruct Hin; [congruence | assumption].
Qed.

End DictUpdate.

(** * The grouping loop of [compare_cities] *)









(** * The counting loop of [weather_probability] *)

Lemma counting (ws : list string) :
  count_weather ws
  = map (fun w => (w, count_occ string_dec ws w)) (first_occurrences ws).
Proof.
  unfold count_weather.
  induction ws as [| w ws IH] using rev_ind; [reflexivity |].
  rewrite fold_left_app. cbn [fold_left]. rewrite IH.
  rewrite first_occurrences_snoc.
  destruct (in_dec string_dec w ws) as [Hin | Hnin].
  - rewrite dict_update_present;
      [| apply first_occurrences_NoDup | apply first_occurrences_In, Hin].
    apply map_ext. intros k. rewrite count_occ_app. simpl.
    destruct (string_dec k w) as [-> | Hne].
    + destruct (string_dec w w); [| congruence]. f_equal. lia.
    + destruct (string_dec w k); [congruence |]. f_equal. lia.
  - rewrite dict_update_absent
      by (rewrite first_occurrences_In; exact Hnin).
    rewrite map_app. cbn [map]. f_equal.
    + apply map_ext_in. intros k Hk. rewrite count_occ_app. simpl.
      destruct (string_dec w k) as [<- | _].
      * exfalso. apply Hnin, first_occurrences_In, Hk.
      * f_equal. lia.
    + rewrite count_occ_app. simpl.
      destruct (string_dec w w); [| congruence].
      rewrite (proj1 (count_occ_not_In string_dec ws w) Hnin). reflexivity.
Qed.

(** The counts of the distinct elements add up to the length. *)
Lemma count_indicator (ks : list string) (a : string) :
  NoDup ks -> In a ks ->
  list_sum (map (fun k => if string_dec a k then 1%nat else 0%nat) ks) = 1%nat.
Proof.
  induction 1 as [| k ks Hk Hnd IH]; intros Hin; [destruct Hin |].
  simpl. destruct (string_dec a k) as [-> | Hne].
  - f_equal. clear IH Hin Hnd. induction ks as [| y ks IH]; [reflexivity |].
    simpl. destruct (string_dec k y) as [-> | _].
    + exfalso. apply Hk. left. reflexivity.
    + apply IH. intros H. apply Hk. right. exact H.
  - apply IH. destruct Hin; [congruence | assumption].
Qed.

Lemma list_sum_map_add {A : Type} (f g : A -> nat) (l : list A) :
  list_sum (map (fun x => (f x + g x)%nat) l)
  = (list_sum (map f l) + list_sum (map g l))%nat.
Proof.
  induction l as [| x l IH]; simpl; [reflexivity | rewrite IH; lia].
Qed.

Lemma counts_total (ks ws : list string) :
  NoDup ks -> (forall w, In w ws -> In w ks) ->
  list_sum (map (fun k => count_occ string_dec ws k) ks) = List.length ws.
Proof.
  intros Hnd. induction ws as [| a ws IH]; intros Hin.
  - clear Hin Hnd. induction ks as [| k ks IH]; [reflexivity | exact IH].
  - rewrite (map_ext _ (fun k => ((if string_dec a k then 1 else 0)
                                  + count_occ string_dec ws k)%nat)).
    2:{ intros k. simpl. destruct (string_dec a k); reflexivity. }
    rewrite list_sum_map_add.
    rewrite count_indicator; [| exact Hnd | apply Hin; left; reflexivity].
    simpl. f_equal. apply IH. intros w Hw. apply Hin. right. exact Hw.
Qed.






Lemma keys_map {V : Type} (g : string -> V) (ks : list string) :
  keys (map (fun k => (k, g k)) ks) = ks.
Proof.
  unfold keys. rewrite map_map. simpl. apply map_id.
Qed.

Lemma in_season_spec (c : string) (months : list Z) (r : row) :
  in_season c months r = true <-> city r = c /\ In (month r) months.
Proof.
  unfold in_season. rewrite andb_true_iff, String.eqb_eq, existsb_exists.
  split.
  - intros [Hc [m [Hm E]]]. apply Z.eqb_eq in E. subst. tauto.
  - intros [Hc Hm]. split; [exact Hc |].
    exists (month r). split; [exact Hm | apply Z.eqb_refl].
Qed.

(** ** get_basic_stats *)





(** ** seasonal_analysis *)





(** ** compare_cities *)





(** ** weather_probability *)



(** ** Failures of get_basic_stats *)

Lemma getitem_unknown (r : row) (column : string) :
  ~ In column schema -> getitem r column = Raise (KeyError column).
Proof.
  intros Hn. unfold getitem.
  repeat match goal with
         | |- context [String.eqb column ?s] =>
             destruct (String.eqb_spec column s) as [-> | _];
             [exfalso; apply Hn; unfold schema; simpl; tauto |]
         end.
  reflexivity.
Qed.

(** C5 (amended).  On a table without rows [get_basic_stats] raises
    [StatisticsError], whatever the column; on a table with rows and a column
    that is not one of the table's it raises [KeyError] with the column.  In
    both cases the object is left as it was, and a later call on it returns
    what it returns on the object before the failure. *)
Theorem C5_get_basic_stats_failures (sqrt : Q -> Q)
        (self : SimpleWeatherAnalyzer) (column : string) :
  (data self = [] ->
   call (fun s => get_basic_stats sqrt s column) self
   = (Raise StatisticsError, self)) /\
  (data self <> [] -> ~ In column schema ->
   call (fun s => get_basic_stats sqrt s column) self
   = (Raise (KeyError column), self)) /\
  (forall (A : Type) (later : SimpleWeatherAnalyzer -> result A),
     fst (call later
            (snd (call (fun s => get_basic_stats sqrt s column) self)))
     = later self).
Proof.
  split; [| split].
  - intros Hnil. unfold call, get_basic_stats. rewrite Hnil. reflexivity.
  - intros Hne Hn. unfold call, get_basic_stats.
    destruct (data self) as [| r rows]; [congruence |].
    unfold column_values. cbn [mapM].
    rewrite (getitem_unknown r column Hn). reflexivity.
  - reflexivity.
Qed.

Lemma C5_witness :
  call (fun s => get_basic_stats approx_sqrt s "wind") thirds_table
  = (Raise (KeyError "wind"), thirds_table) /\
  call (fun s => get_basic_stats approx_sqrt s "temperature") empty_table
  = (Raise StatisticsError, empty_table).
Proof.
  split.
  - apply (C5_get_basic_stats_failures approx_sqrt thirds_table "wind").
    + discriminate.
    + unfold schema. simpl.
      intros [H | [H | [H | [H | [H | [H | [H | []]]]]]]]; discriminate H.
  - apply (C5_get_basic_stats_failures approx_sqrt empty_table "temperature").
    reflexivity.
Defined.

(** C5 as stated fails: on a table without rows a column that is not in the
    schema raises [StatisticsError], not [KeyError]. *)
Lemma C5_counterexample :
  ~ In "wind" schema /\
  get_basic_stats approx_sqrt empty_table "wind" = Raise StatisticsError /\
  get_basic_stats approx_sqrt empty_table "wind" <> Raise (KeyError "wind").
Proof.
  split; [| split; [reflexivity | discriminate]].
  unfold schema. simpl.
  intros [H | [H | [H | [H | [H | [H | [H | []]]]]]]]; discriminate H.
Qed.

(** ** generate_story_data *)








(** ** calculate_correlation *)

Lemma calculate_correlation_numeric (sqrt : Q -> Q)
      (self : SimpleWeatherAnalyzer) (column1 column2 : string)
      (f1 f2 : row -> Q) :
  numeric_field column1 = Some f1 ->
  numeric_field column2 = Some f2 ->
  calculate_correlation sqrt self column1 column2
  = match data self with
    | [] => Raise StatisticsError
    | _ => pearson sqrt (map f1 (data self)) (map f2 (data self))
    end.
Proof.
  intros H1 H2. unfold calculate_correlation.
  rewrite (column_values_numeric _ _ _ H1), (column_values_numeric _ _ _ H2).
  cbn [bind].
  destruct (data self) as [| r rows] eqn:E; [reflexivity |].
  rewrite !mean_Num by discriminate. cbn [bind].
  rewrite !numbers_Num. reflexivity.
Qed.

Lemma Qmult_comm_eq (x y : Q) : x * y = y * x.
Proof.
  unfold Qmult. rewrite (Z.mul_comm (Qnum x)), (Pos.mul_comm (Qden x)).
  reflexivity.
Qed.

Lemma products_swap (m1 m2 : Q) (xs ys : list Q) :
  map (fun '(x, y) => (x - m1) * (y - m2)) (combine xs ys)
  = map (fun '(y, x) => (y - m2) * (x - m1)) (combine ys xs).
Proof.
  revert ys. induction xs as [| x xs IH]; intros [| y ys]; try reflexivity.
  simpl. rewrite IH, (Qmult_comm_eq (x - m1)). reflexivity.
Qed.

Lemma pearson_sym (sqrt : Q -> Q) (xs ys : list Q) :
  pearson sqrt xs ys = pearson sqrt ys xs.
Proof.
  unfold pearson. cbv zeta.
  rewrite (products_swap _ _ xs ys), orb_comm, (Qmult_comm_eq (Py.sum _)).
  reflexivity.
Qed.

(** C8.  The correlation is symmetric: on every table and every two numeric
    columns, [calculate_correlation] of the columns in one order and in the
    other return the same (the same coefficient, or the same failure on a
    table without rows). *)
Theorem C8_correlation_symmetric (sqrt : Q -> Q)
        (self : SimpleWeatherAnalyzer) (columnA columnB : string)
        (fA fB : row -> Q) :
  numeric_field columnA = Some fA ->
  numeric_field columnB = Some fB ->
  calculate_correlation sqrt self columnA columnB
  = calculate_correlation sqrt self columnB columnA.
Proof.
  intros HA HB.
  rewrite (calculate_correlation_numeric sqrt self _ _ _ _ HA HB).
  rewrite (calculate_correlation_numeric sqrt self _ _ _ _ HB HA).
  destruct (data self); [reflexivity | apply pearson_sym].
Qed.

Lemma C8_witness :
  calculate_correlation approx_sqrt cities_table "temperature" "humidity"
  = calculate_correlation approx_sqrt cities_table "humidity" "temperature".
Proof.
  apply (C8_correlation_symmetric approx_sqrt cities_table
           "temperature" "humidity" temperature humidity);
    reflexivity.
Defined.









(** ** _interpret_correlation *)



(** C6, at the inputs where the code departs from it.  At [r = -0.3] the
    answer of [_interpret_correlation] is the moderate negative correlation,
    where [|r| = 0.3] is weak and [r = 0.3] is answered weak; at [r = -0.7]
    the answer is the strong negative correlation, where [|r| = 0.7] is
    moderate and [r = 0.7] is answered moderate. *)
Theorem C6_interpret_negative_thresholds :
  _interpret_correlation (- (3 # 10)) = ModerateNegative /\
  spec_strength (- (3 # 10)) = Faint /\
  _interpret_correlation (3 # 10) = Weak /\
  _interpret_correlation (- (7 # 10)) = StrongNegative /\
  spec_strength (- (7 # 10)) = Moderate /\
  _interpret_correlation (7 # 10) = ModeratePositive.
Proof.
  repeat split; reflexivity.
Qed.

(** ** Rounding of the returned numbers *)



(* ================================================================== *)
(** * Further properties of the analyzer *)
(* ================================================================== *)

(** ** Rounding keeps the order *)




(** ** The mean and the median lie between the least and the greatest value *)










(** ** The variance is not negative *)






(** ** Which calls succeed, and how the others fail *)

Lemma numeric_in_schema (column : string) (f : row -> Q) :
  numeric_field column = Some f -> In column schema.
Proof.
  unfold numeric_field, schema.
  repeat match goal with
         | |- context [String.eqb column ?s] =>
             destruct (String.eqb_spec column s) as [-> | _];
             [intros _; simpl; tauto |]
         end.
  discriminate.
Qed.

(** The three columns of str. *)
Lemma getitem_text (column : string) :
  In column schema -> numeric_field column = None ->
  exists g : row -> string, forall r, getitem r column = Ok (Str (g r)).
Proof.
  unfold schema. simpl.
  intros [<- | [<- | [<- | [<- | [<- | [<- | [<- | []]]]]]]] Hn;
    try discriminate Hn.
  - exists date. reflexivity.
  - exists city. reflexivity.
  - exists weather_condition. reflexivity.
Qed.

Lemma column_values_text (column : string) (g : row -> string)
      (rows : list row) :
  (forall r, getitem r column = Ok (Str (g r))) ->
  column_values rows column = Ok (map (fun r => Str (g r)) rows).
Proof.
  intros Hg. unfold column_values.
  induction rows as [| r rows IH]; simpl; [reflexivity |].
  rewrite Hg. simpl. rewrite IH. reflexivity.
Qed.

Lemma column_values_unknown (column : string) (r : row) (rows : list row) :
  ~ In column schema ->
  column_values (r :: rows) column = Raise (KeyError column).
Proof.
  intros Hn. unfold column_values. cbn [mapM].
  rewrite (getitem_unknown r column Hn). reflexivity.
Qed.

Lemma mean_text (s : string) (values : list value) :
  Statistics.mean (Str s :: values) = Raise TypeError.
Proof. reflexivity. Qed.

Lemma numeric_or_not (column : string) :
  (exists f, numeric_field column = Some f) \/ numeric_field column = None.
Proof.
  destruct (numeric_field column) as [f |];
    [left; exists f; reflexivity | right; reflexivity].
Qed.



(** ** compare_cities *)






(** ** seasonal_analysis *)

Lemma in_season_absent (city' : string) (months : list Z) (rows : list row) :
  ~ In city' (map city rows) -> filter (in_season city' months) rows = [].
Proof.
  induction rows as [| r rows IH]; intros Hn; simpl; [reflexivity |].
  destruct (in_season city' months r) eqn:E.
  - apply in_season_spec in E. destruct E as [E _].
    exfalso. apply Hn. left. exact E.
  - apply IH. intros Hin. apply Hn. right. exact Hin.
Qed.

(** For a city that has no row in the table, [seasonal_analysis] returns 0
    for the four seasons, whatever the column: also for a column that the
    table lacks, where no row is read. *)
Theorem seasonal_analysis_absent_city (self : SimpleWeatherAnalyzer)
        (city' column : string) :
  ~ In city' (map city (data self)) ->
  seasonal_analysis self city' column
  = Ok [("春", 0); ("夏", 0); ("秋", 0); ("冬", 0)].
Proof.
  intros Hn. unfold seasonal_analysis, seasons. cbn [mapM].
  rewrite !(in_season_absent city' _ _ Hn). reflexivity.
Qed.

Lemma seasonal_analysis_absent_city_witness :
  seasonal_analysis thirds_table "Osaka" "wind"
  = Ok [("春", 0); ("夏", 0); ("秋", 0); ("冬", 0)].
Proof.
  apply (seasonal_analysis_absent_city thirds_table "Osaka" "wind").
  simpl. intros [H | [H | [H | []]]]; discriminate H.
Defined.

Ltac in_one_season season months :=
  solve [ exists season, months;
          split; [simpl; tauto |]; split; [simpl; lia |];
          let s' := fresh in
          let ms' := fresh in
          let Hs := fresh in
          let Hm := fresh in
          intros s' ms' Hs Hm; simpl in Hs;
          destruct Hs as [Hs | [Hs | [Hs | [Hs | []]]]];
          inversion Hs; subst; simpl in Hm;
          first [reflexivity | exfalso; lia] ].

(** Every month from 1 to 12 is in the list of one season and of no
    other. *)
Lemma month_in_one_season (m : Z) :
  (1 <= m <= 12)%Z ->
  exists season months,
    In (season, months) seasons /\ In m months /\
    forall season' months',
      In (season', months') seasons -> In m months' -> season' = season.
Proof.
  intros Hm.
  assert (Hcases : In m [1; 2; 3; 4; 5; 6; 7; 8; 9; 10; 11; 12]%Z).
  { simpl. lia. }
  unfold seasons. simpl in Hcases.
  destruct Hcases
    as [E | [E | [E | [E | [E | [E | [E | [E | [E | [E | [E | [E | []]]]]]]]]]]]];
    rewrite <- E;
    first [ in_one_season "春" [3; 4; 5]%Z
          | in_one_season "夏" [6; 7; 8]%Z
          | in_one_season "秋" [9; 10; 11]%Z
          | in_one_season "冬" [12; 1; 2]%Z ].
Qed.

Lemma month_in_one_season_witness :
  exists season months,
    In (season, months) seasons /\ In 12%Z months /\
    forall season' months',
      In (season', months') seasons -> In 12%Z months' -> season' = season.
Proof.
  apply (month_in_one_season 12). lia.
Defined.

(** When the city has a row of a month from 1 to 12, and the table lacks the
    column, [seasonal_analysis] raises [KeyError] with the column. *)
Theorem seasonal_analysis_unknown_column (self : SimpleWeatherAnalyzer)
        (city' column : string) (r : row) :
  In r (data self) -> city r = city' -> (1 <= month r <= 12)%Z ->
  ~ In column schema ->
  seasonal_analysis self city' column = Raise (KeyError column).
Proof.
  intros Hr Hc Hm Hout.
  assert (Hsome : exists months,
             In months [[3; 4; 5]; [6; 7; 8]; [9; 10; 11]; [12; 1; 2]]%Z /\
             filter (in_season city' months) (data self) <> []).
  { assert (Hcases : In (month r) [1; 2; 3; 4; 5; 6; 7; 8; 9; 10; 11; 12]%Z)
      by (simpl; lia).
    assert (Hex : exists months,
               In months [[3; 4; 5]; [6; 7; 8]; [9; 10; 11]; [12; 1; 2]]%Z /\
               In (month r) months).
    { simpl in Hcases.
      destruct Hcases
        as [E | [E | [E | [E | [E | [E | [E | [E | [E | [E | [E | [E | []]]]]]]]]]]]];
        rewrite <- E;
        first [ exists [3; 4; 5]%Z; split; simpl; tauto
              | exists [6; 7; 8]%Z; split; simpl; tauto
              | exists [9; 10; 11]%Z; split; simpl; tauto
              | exists [12; 1; 2]%Z; split; simpl; tauto ]. }
    destruct Hex as [months [Hin Hmm]]. exists months. split; [exact Hin |].
    intros Hnil.
    assert (Hf : In r (filter (in_season city' months) (data self))).
    { apply filter_In. split; [exact Hr |]. apply in_season_spec. tauto. }
    rewrite Hnil in Hf. destruct Hf. }
  unfold seasonal_analysis, seasons. cbn [mapM].
  destruct Hsome as [months [Hin Hne]].
  destruct (filter (in_season city' [3; 4; 5]%Z) (data self)) eqn:E1;
    [| rewrite (column_values_unknown _ _ _ Hout); reflexivity].
  cbn [column_values mapM bind].
  destruct (filter (in_season city' [6; 7; 8]%Z) (data self)) eqn:E2;
    [| rewrite (column_values_unknown _ _ _ Hout); reflexivity].
  cbn [column_values mapM bind].
  destruct (filter (in_season city' [9; 10; 11]%Z) (data self)) eqn:E3;
    [| rewrite (column_values_unknown _ _ _ Hout); reflexivity].
  cbn [column_values mapM bind].
  destruct (filter (in_season city' [12; 1; 2]%Z) (data self)) eqn:E4;
    [| rewrite (column_values_unknown _ _ _ Hout); reflexivity].
  exfalso. simpl in Hin.
  destruct Hin as [<- | [<- | [<- | [<- | []]]]]; congruence.
Qed.

Lemma seasonal_analysis_unknown_column_witness :
  seasonal_analysis thirds_table "Tokyo" "wind" = Raise (KeyError "wind").
Proof.
  apply (seasonal_analysis_unknown_column thirds_table "Tokyo" "wind"
           (observation "Tokyo" 3 1 0 40 "sunny")).
  - left. reflexivity.
  - reflexivity.
  - simpl. lia.
  - unfold schema. simpl.
    intros [H | [H | [H | [H | [H | [H | [H | []]]]]]]]; discriminate H.
Defined.

(** ** calculate_correlation *)

Lemma column_values_known (column : string) (rows : list row) :
  In column schema -> exists vs, column_values rows column = Ok vs.
Proof.
  intros Hin. destruct (numeric_or_not column) as [[f Hf] | Hn].
  - eexists. apply (column_values_numeric _ _ _ Hf).
  - destruct (getitem_text column Hin Hn) as [g Hg].
    eexists. apply (column_values_text _ _ _ Hg).
Qed.

(** The failures of [calculate_correlation] come in the order of its
    statements.  On a table without rows it raises [StatisticsError],
    whatever the two columns.  On a table with rows it raises [KeyError]
    with the first column when the table lacks it, and with the second when
    the table has the first and lacks the second. *)
Theorem calculate_correlation_failures (sqrt : Q -> Q)
        (self : SimpleWeatherAnalyzer) (column1 column2 : string) :
  (data self = [] ->
   calculate_correlation sqrt self column1 column2 = Raise StatisticsError) /\
  (data self <> [] -> ~ In column1 schema ->
   calculate_correlation sqrt self column1 column2
   = Raise (KeyError column1)) /\
  (data self <> [] -> In column1 schema -> ~ In column2 schema ->
   calculate_correlation sqrt self column1 column2
   = Raise (KeyError column2)).
Proof.
  unfold calculate_correlation. split; [| split].
  - intros Hnil. rewrite Hnil. reflexivity.
  - intros Hne Hout. destruct (data self) as [| r rows]; [congruence |].
    rewrite (column_values_unknown _ _ _ Hout). reflexivity.
  - intros Hne Hin Hout. destruct (data self) as [| r rows]; [congruence |].
    destruct (column_values_known column1 (r :: rows) Hin) as [vs ->].
    cbn [bind]. rewrite (column_values_unknown _ _ _ Hout). reflexivity.
Qed.

Lemma calculate_correlation_failures_witness :
  calculate_correlation approx_sqrt cities_table "wind" "rain"
  = Raise (KeyError "wind") /\
  calculate_correlation approx_sqrt cities_table "humidity" "rain"
  = Raise (KeyError "rain").
Proof.
  assert (Hwind : ~ In "wind" schema).
  { unfold schema. simpl.
    intros [H | [H | [H | [H | [H | [H | [H | []]]]]]]]; discriminate H. }
  assert (Hrain : ~ In "rain" schema).
  { unfold schema. simpl.
    intros [H | [H | [H | [H | [H | [H | [H | []]]]]]]]; discriminate H. }
  split.
  - apply (calculate_correlation_failures approx_sqrt cities_table
             "wind" "rain");
      [discriminate | exact Hwind].
  - apply (calculate_correlation_failures approx_sqrt cities_table
             "humidity" "rain");
      [discriminate | unfold schema; simpl; tauto | exact Hrain].
Defined.






(** ** _interpret_correlation *)





(** ** weather_probability *)

(** The conditions that [weather_probability] lists are those of the rows of
    the city, each once; the count of a condition is 1 or more, and the
    counts add up to the number of rows of the city. *)
Theorem weather_counts_partition (self : SimpleWeatherAnalyzer)
        (city' : string) :
  let city_weather := map weather_condition (rows_of city' (data self)) in
  let weather_counts := count_weather city_weather in
  NoDup (keys weather_counts) /\
  (forall w, In w (keys weather_counts) <-> In w city_weather) /\
  (forall w c, In (w, c) weather_counts -> (1 <= c)%nat) /\
  list_sum (map snd weather_counts) = List.length city_weather.
Proof.
  intros city_weather weather_counts. unfold weather_counts.
  rewrite counting, keys_map.
  split; [apply first_occurrences_NoDup |].
  split; [intros w; apply first_occurrences_In |].
  split.
  - intros w c Hin. apply in_map_iff in Hin.
    destruct Hin as [w' [E Hw]]. inversion E; subst.
    apply (proj1 (first_occurrences_In _ _)) in Hw.
    apply (count_occ_In string_dec) in Hw. lia.
  - rewrite map_map. cbn [snd].
    apply counts_total; [apply first_occurrences_NoDup |].
    intros w Hw. apply first_occurrences_In, Hw.
Qed.

(* ================================================================== *)
(** * The dashboard: levels and experience *)
(* ================================================================== *)

Lemma level_arith (exp exp' : Z) :
  ((0 <= exp)%Z -> (1 <= App.calculate_level exp <= 10)%Z) /\
  ((exp <= exp')%Z ->
   (App.calculate_level exp <= App.calculate_level exp')%Z) /\
  (App.calculate_level exp = 10%Z <-> (900 <= exp)%Z) /\
  ((App.calculate_level exp < 10)%Z ->
   (exp = 100 * (App.calculate_level exp - 1) + exp mod 100)%Z /\
   (0 <= exp mod 100 < 100)%Z).
Proof.
  unfold App.calculate_level.
  pose proof (Z.div_mod exp 100 ltac:(lia)) as Hdm.
  pose proof (Z.mod_pos_bound exp 100 ltac:(lia)) as Hmod.
  pose proof (Z.div_mod exp' 100 ltac:(lia)) as Hdm'.
  pose proof (Z.mod_pos_bound exp' 100 ltac:(lia)) as Hmod'.
  repeat split; intros; lia.
Qed.

(** The level is from 1 to 10 for an experience that is not negative; it
    grows with the experience; it is 10 exactly from 900 points on; and
    below 10 the experience is 100 for every level passed plus the part
    [experience % 100], from 0 to 99, that the bar of the sidebar shows. *)
Theorem calculate_level_bounds (exp exp' : Z) :
  ((0 <= exp)%Z -> (1 <= App.calculate_level exp <= 10)%Z) /\
  ((exp <= exp')%Z ->
   (App.calculate_level exp <= App.calculate_level exp')%Z) /\
  (App.calculate_level exp = 10%Z <-> (900 <= exp)%Z) /\
  ((App.calculate_level exp < 10)%Z ->
   (exp = 100 * (App.calculate_level exp - 1) + exp mod 100)%Z /\
   (0 <= exp mod 100 < 100)%Z).
Proof.
  unfold App.calculate_level.
  pose proof (Z.div_mod exp 100 ltac:(lia)) as Hdm.
  pose proof (Z.mod_pos_bound exp 100 ltac:(lia)) as Hmod.
  pose proof (Z.div_mod exp' 100 ltac:(lia)) as Hdm'.
  pose proof (Z.mod_pos_bound exp' 100 ltac:(lia)) as Hmod'.
  repeat split; intros; lia.
Qed.

Lemma calculate_level_bounds_witness :
  (1 <= App.calculate_level 250 <= 10)%Z /\
  (App.calculate_level 250 <= App.calculate_level 1000)%Z.
Proof.
  split.
  - apply (proj1 (calculate_level_bounds 250 1000)). lia.
  - apply (proj1 (proj2 (calculate_level_bounds 250 1000))). lia.
Defined.

(** The ten levels have ten different titles, the level of an experience
    that is not negative has its own title in the table, and a level that
    is not from 1 to 10 is shown with the title of level 1. *)
Theorem level_titles (level1 level2 exp : Z) :
  ((1 <= level1 <= 10)%Z -> (1 <= level2 <= 10)%Z ->
   App.get_level_title level1 = App.get_level_title level2 ->
   level1 = level2) /\
  ((0 <= exp)%Z ->
   In (App.calculate_level exp,
       App.get_level_title (App.calculate_level exp)) App.titles) /\
  ((level1 < 1)%Z \/ (10 < level1)%Z ->
   App.get_level_title level1 = App.get_level_title 1).
Proof.
  assert (Hcases : forall l, (1 <= l <= 10)%Z ->
            In l [1; 2; 3; 4; 5; 6; 7; 8; 9; 10]%Z).
  { intros l Hl. simpl. lia. }
  split; [| split].
  - intros H1 H2.
    apply Hcases in H1. apply Hcases in H2. simpl in H1, H2.
    repeat (destruct H1 as [<- | H1]; [| ]);
      try (destruct H1);
      repeat (destruct H2 as [<- | H2]; [| ]);
      try (destruct H2);
      intros E; try reflexivity; vm_compute in E; discriminate E.
  - intros Hexp.
    destruct (level_arith exp exp) as [Hb _].
    specialize (Hb Hexp). apply Hcases in Hb. simpl in Hb.
    repeat (destruct Hb as [<- | Hb]; [simpl; tauto |]).
    destruct Hb.
  - intros Hout. unfold App.get_level_title, App.titles.
    cbn [App.get].
    repeat match goal with
           | |- context [(?k =? level1)%Z] =>
               destruct (Z.eqb_spec k level1); [lia |]
           end.
    reflexivity.
Qed.

Lemma level_titles_witness :
  In (App.calculate_level 250,
      App.get_level_title (App.calculate_level 250)) App.titles.
Proof.
  apply (proj1 (proj2 (level_titles 1 1 250))). lia.
Defined.

Lemma contains_In (l : list string) (x : string) :
  App.contains l x = true <-> In x l.
Proof.
  unfold App.contains. rewrite existsb_exists. split.
  - intros [y [Hy E]]. apply String.eqb_eq in E. subst. exact Hy.
  - intros H. exists x. split; [exact H | apply String.eqb_refl].
Qed.



Lemma add_experience_appends (points : Z) (achievement : string)
      (state : App.session_state) :
  let fresh :=
    App.truthy achievement
    && negb (App.contains (App.achievements state) achievement) in
  App.achievements (fst (App.add_experience points achievement state))
  = (if fresh then (App.achievements state ++ [achievement])%list
     else App.achievements state) /\
  (In (App.NewAchievement achievement)
      (snd (App.add_experience points achievement state))
   <-> fresh = true).
Proof.
  unfold App.add_experience. cbv zeta.
  destruct (App.level state
            <? App.calculate_level (App.experience state + points))%Z;
    destruct (App.truthy achievement
              && negb (App.contains (App.achievements state) achievement));
    cbn [fst snd App.achievements app In];
    (split; [reflexivity |]); split; intros H;
    try reflexivity; try discriminate H; try tauto;
    repeat (destruct H as [H | H]; try discriminate H); destruct H.
Qed.

Lemma fresh_achievement (old : list string) (achievement : string) :
  App.truthy achievement && negb (App.contains old achievement) = true
  <-> achievement <> "" /\ ~ In achievement old.
Proof.
  rewrite andb_true_iff, negb_true_iff.
  rewrite <- (contains_In old achievement).
  destruct achievement; simpl; split; intros [A B]; split;
    try congruence; try discriminate;
    destruct (App.contains old _); congruence.
Qed.

(** [add_experience] keeps the list of the achievements free of doubles and
    of the empty str: it only appends, at the end, an achievement that is
    not empty and not yet in the list, and announces exactly this; after the
    call an achievement that is not empty is in the list. *)
Theorem add_experience_achievements (points : Z) (achievement : string)
        (state : App.session_state) :
  let state' := fst (App.add_experience points achievement state) in
  let shown := snd (App.add_experience points achievement state) in
  let old := App.achievements state in
  (App.achievements state' = old \/
   App.achievements state' = (old ++ [achievement])%list /\
   achievement <> "" /\ ~ In achievement old) /\
  (NoDup old -> NoDup (App.achievements state')) /\
  (~ In "" old -> ~ In "" (App.achievements state')) /\
  (achievement <> "" -> In achievement (App.achievements state')) /\
  (In (App.NewAchievement achievement) shown <->
   achievement <> "" /\ ~ In achievement old).
Proof.
  intros state' shown old. subst state' shown.
  destruct (add_experience_appends points achievement state) as [E S].
  cbv zeta in E, S. rewrite E, S. fold old. clear E S.
  pose proof (fresh_achievement old achievement) as F.
  destruct (App.truthy achievement
            && negb (App.contains old achievement)) eqn:C.
  - destruct (proj1 F eq_refl) as [Hne Hnin].
    split; [right; repeat split; assumption |].
    split; [| split; [| split]].
    + intros Hnd. apply NoDup_app. repeat split.
      * exact Hnd.
      * constructor; [intros [] | constructor].
      * intros x Hx [<- | []]. contradiction.
    + intros Hn Hin. apply in_app_or in Hin.
      destruct Hin as [Hin | [Hin | []]]; [contradiction | congruence].
    + intros _. apply in_or_app. right. left. reflexivity.
    + exact F.
  - split; [left; reflexivity |].
    split; [tauto | split; [tauto | split]].
    + intros Hne.
      destruct (in_dec string_dec achievement old) as [Hin | Hnin];
        [exact Hin |].
      assert (Habs : false = true) by (apply F; split; assumption).
      discriminate Habs.
    + exact F.
Qed.

Lemma add_experience_achievements_witness :
  NoDup (App.achievements
           (fst (App.add_experience 20 "first"
                   {| App.experience := 0; App.level := 1;
                      App.achievements := ["first"] |}))).
Proof.
  apply (add_experience_achievements 20 "first"
           {| App.experience := 0; App.level := 1;
              App.achievements := ["first"] |}).
  constructor; [intros [] | constructor].
Defined.

(* ================================================================== *)
(** * The learning guide and the feedback *)
(* ================================================================== *)

Lemma index_in_range {A : Type} (l : list A) (i : Z) :
  (0 <= i < Z.of_nat (List.length l))%Z ->
  exists a, nth_error l (Z.to_nat i) = Some a /\
            Education.index l i = Education.Return a.
Proof.
  intros Hi. unfold Education.index. cbv zeta.
  destruct (Z.ltb_spec i 0) as [Hn | _]; [lia |].
  destruct (Z.ltb_spec i 0) as [Hn | _]; [lia |].
  destruct (nth_error l (Z.to_nat i)) as [a |] eqn:E.
  - exists a. split; reflexivity.
  - apply nth_error_None in E. lia.
Qed.

Lemma get_step_spec {Step : Type}
      (self : Education.LearningProgressGuide Step) (step_number : Z) :
  let steps := Education.learning_steps self in
  let n := Z.of_nat (List.length steps) in
  ((1 <= step_number <= n)%Z ->
   exists s, nth_error steps (Z.to_nat (step_number - 1)) = Some s /\
             Education.get_step self step_number
             = Education.Return (Education.TheStep s)) /\
  ((step_number < 1)%Z \/ (n < step_number)%Z ->
   Education.get_step self step_number
   = Education.Return (Education.NoSuchStep step_number)) /\
  Education.get_step self step_number <> Education.IndexError.
Proof.
  intros steps n. unfold Education.get_step. fold steps. fold n.
  destruct (Z.ltb_spec step_number 1) as [H1 | H1];
    destruct (Z.ltb_spec n step_number) as [H2 | H2]; cbn [orb];
    try (split; [intros; lia | split; [reflexivity | discriminate]]).
  destruct (index_in_range steps (step_number - 1)) as [s [Hs Hi]];
    [fold n; lia |].
  rewrite Hi. split; [| split; [intros; lia | discriminate]].
  intros _. exists s. split; [exact Hs | reflexivity].
Qed.

(** [get_step] never raises [IndexError]: for a number from 1 to the number
    of the steps it returns the step at this place of the list, and for every
    other number the error of the step that does not exist. *)
Theorem get_step_guarded {Step : Type}
        (self : Education.LearningProgressGuide Step) (step_number : Z) :
  let steps := Education.learning_steps self in
  let n := Z.of_nat (List.length steps) in
  ((1 <= step_number <= n)%Z ->
   exists s, nth_error steps (Z.to_nat (step_number - 1)) = Some s /\
             Education.get_step self step_number
             = Education.Return (Education.TheStep s)) /\
  ((step_number < 1)%Z \/ (n < step_number)%Z ->
   Education.get_step self step_number
   = Education.Return (Education.NoSuchStep step_number)) /\
  Education.get_step self step_number <> Education.IndexError.
Proof.
  intros steps n. unfold Education.get_step. fold steps. fold n.
  destruct (Z.ltb_spec step_number 1) as [H1 | H1];
    destruct (Z.ltb_spec n step_number) as [H2 | H2]; cbn [orb];
    try (split; [intros; lia | split; [reflexivity | discriminate]]).
  destruct (index_in_range steps (step_number - 1)) as [s [Hs Hi]];
    [fold n; lia |].
  rewrite Hi. split; [| split; [intros; lia | discriminate]].
  intros _. exists s. split; [exact Hs | reflexivity].
Qed.

Lemma get_step_guarded_witness :
  Education.get_step {| Education.learning_steps := ["a"; "b"; "c"] |} 2
  = Education.Return (Education.TheStep "b").
Proof.
  destruct (get_step_guarded
              {| Education.learning_steps := ["a"; "b"; "c"] |} 2)
    as [H _].
  destruct H as [s [Hs E]]; [simpl; lia |].
  simpl in Hs. injection Hs as <-. exact E.
Defined.

(** [get_next_step] never raises [IndexError]: from a current step of 0 up
    to the last but one it returns the step after it, from the last step on
    the message of the completion, and for a negative current step the error
    of the step [current_step + 1], also for -1, where the step 0 does not
    exist. *)
Theorem get_next_step_cases {Step : Type}
        (self : Education.LearningProgressGuide Step) (current_step : Z) :
  let steps := Education.learning_steps self in
  let n := Z.of_nat (List.length steps) in
  ((0 <= current_step < n)%Z ->
   exists s, nth_error steps (Z.to_nat current_step) = Some s /\
             Education.get_next_step self current_step
             = Education.Return (Education.TheStep s) /\
             Education.get_next_step self current_step
             = Education.get_step self (current_step + 1)) /\
  ((n <= current_step)%Z ->
   Education.get_next_step self current_step
   = Education.Return Education.Completed) /\
  ((current_step < 0)%Z ->
   Education.get_next_step self current_step
   = Education.Return (Education.NoSuchStep (current_step + 1))) /\
  Education.get_next_step self current_step <> Education.IndexError.
Proof.
  intros steps n.
  destruct (get_step_spec self (current_step + 1)) as (Hin & Hout & Hno).
  fold steps in Hin, Hout. fold n in Hin, Hout.
  unfold Education.get_next_step. fold steps. fold n.
  destruct (Z.leb_spec n current_step) as [Hc | Hc].
  - split; [intros; lia |]. split; [reflexivity |].
    split; [intros; lia | discriminate].
  - split; [| split; [intros; lia | split; [| exact Hno]]].
    + intros H0. destruct Hin as [s [Hs E]]; [lia |].
      exists s. replace (current_step + 1 - 1)%Z with current_step in Hs by lia.
      split; [exact Hs |]. split; [exact E | reflexivity].
    + intros Hneg. apply Hout. left. lia.
Qed.

Lemma get_next_step_cases_witness :
  Education.get_next_step {| Education.learning_steps := ["a"; "b"; "c"] |} 0
  = Education.Return (Education.TheStep "a") /\
  Education.get_next_step
    {| Education.learning_steps := ["a"; "b"; "c"] |} (-1)
  = Education.Return (Education.NoSuchStep 0).
Proof.
  split.
  - destruct (get_next_step_cases
                {| Education.learning_steps := ["a"; "b"; "c"] |} 0)
      as [H _].
    destruct H as [s [Hs [E _]]]; [simpl; lia |].
    simpl in Hs. injection Hs as <-. exact E.
  - apply (get_next_step_cases
             {| Education.learning_steps := ["a"; "b"; "c"] |} (-1)).
    lia.
Defined.

(** The encouragement never goes back to an earlier message when the
    progress grows. *)
Theorem generate_encouragement_monotone (p q : Q) :
  p <= q ->
  (band (Education.generate_encouragement p)
   <= band (Education.generate_encouragement q))%Z.
Proof.
  intros Hpq. unfold Education.generate_encouragement.
  destruct (ltb p 20) eqn:A1; destruct (ltb p 40) eqn:A2;
    destruct (ltb p 60) eqn:A3; destruct (ltb p 80) eqn:A4;
    destruct (ltb q 20) eqn:B1; destruct (ltb q 40) eqn:B2;
    destruct (ltb q 60) eqn:B3; destruct (ltb q 80) eqn:B4;
    try (vm_compute; discriminate); exfalso;
    repeat match goal with
           | H : ltb _ _ = true |- _ => apply ltb_lt in H
           | H : ltb _ _ = false |- _ => apply ltb_ge in H
           end; lra.
Qed.

Lemma generate_encouragement_monotone_witness :
  (band (Education.generate_encouragement 35)
   <= band (Education.generate_encouragement 90))%Z.
Proof.
  apply (generate_encouragement_monotone 35 90).
  apply Qle_bool_iff. reflexivity.
Defined.

(** [get_hint_for_difficulty] answers with the encouragement to think it
    over exactly when the concept is not one of mean, median and mode or the
    difficulty is not one of easy, medium and hard; it raises nothing. *)
Theorem get_hint_default (concept difficulty_level : string) :
  Education.get_hint_for_difficulty concept difficulty_level
  = "頑張って考えてみよう！"
  <-> ~ (In concept ["mean"; "median"; "mode"] /\
         In difficulty_level ["easy"; "medium"; "hard"]).
Proof.
  unfold Education.get_hint_for_difficulty, Education.get, Education.hints.
  cbn [dict_get In].
  destruct (String.eqb_spec "mean" concept) as [<- | C1];
    [| destruct (String.eqb_spec "median" concept) as [<- | C2];
       [| destruct (String.eqb_spec "mode" concept) as [<- | C3]]];
    cbn [dict_get];
    try (destruct (String.eqb_spec "easy" difficulty_level) as [<- | D1];
         [| destruct (String.eqb_spec "medium" difficulty_level)
              as [<- | D2];
            [| destruct (String.eqb_spec "hard" difficulty_level)
                 as [<- | D3]]]);
    split; intros H;
    try reflexivity; try discriminate H; try tauto;
    try (exfalso; apply H; tauto).
Qed.
